(** * Configuration registry of the OCR API service

    A shallow embedding of [src/utils/config.py] and the properties of its
    accessor and validation functions.

    Conventions of the embedding.
    - A Python [str] is a [string]; non-ASCII text is kept as its UTF-8
      bytes.  The only string operations the module performs are
      concatenation, [str.join], and prefix/suffix tests against the ASCII
      separator, all of which commute with UTF-8 encoding.
    - A Python [int] is a [Z]; [str(int)] is its decimal rendering.
    - A [float] constant is kept as the decimal literal written in the
      source; the module never computes with it.
    - [os.path] is the POSIX flavour ([posixpath]).
    - Functions that touch the process environment (the filesystem, through
      [os.path.exists]) live in a state-and-exception monad over the process
      state.
    - [get_config_info] reads the module's global names when it is called
      and hands out the list object the global [TEST_IMAGES] is bound to; it
      lives in a state-and-exception monad over the module's namespace and
      the heap of list objects.  The string functions are pure. *)

From Stdlib Require Import ZArith String List Ascii Bool Lia.
From stdpp Require Import base option list strings gmap pretty.

Open Scope string_scope.
Open Scope list_scope.
Open Scope Z_scope.

(** ** Python string methods used by the module *)

Module PyStr.

(** [s.startswith(p)] *)
Definition startswith (s p : string) : bool := String.prefix p s.

(** [s.endswith(p)]: some tail of [s] is [p]. *)
Fixpoint endswith (s p : string) : bool :=
  String.eqb s p ||
  match s with
  | EmptyString => false
  | String _ s' => endswith s' p
  end.

(** [sep.join(xs)] *)
Definition join (sep : string) (xs : list string) : string :=
  String.concat sep xs.

(** [str(n)] and [f"{n}"] for an [int]. *)
Definition of_int (n : Z) : string := pretty n.

(** ['\0' in s] *)
Fixpoint has_nul (s : string) : bool :=
  match s with
  | EmptyString => false
  | String c s' => Ascii.eqb c Ascii.zero || has_nul s'
  end.

(** [s.rfind(sub)]: the highest index at which [sub] starts, or [-1]. *)
Fixpoint rfind (s sub : string) : Z :=
  match s with
  | EmptyString => if String.eqb sub "" then 0 else -1
  | String _ s' =>
      let r := rfind s' sub in
      if 0 <=? r then r + 1
      else if String.prefix sub s then 0 else -1
  end.

(** [s[:i]] *)
Definition slice_to (s : string) (i : Z) : string :=
  if i <? 0 then substring 0 (Z.to_nat (Z.of_nat (String.length s) + i)) s
  else substring 0 (Z.to_nat i) s.

(** [s * n] *)
Fixpoint repeat (s : string) (n : nat) : string :=
  match n with
  | O => ""
  | S n' => s +:+ repeat s n'
  end.

(** [c in chars] for a character [c] *)
Fixpoint has_char (chars : string) (c : ascii) : bool :=
  match chars with
  | EmptyString => false
  | String x chars' => Ascii.eqb x c || has_char chars' c
  end.

(** [s.rstrip(chars)]: drop the trailing characters that occur in [chars]. *)
Fixpoint rstrip (s chars : string) : string :=
  match s with
  | EmptyString => ""
  | String c s' =>
      let t := rstrip s' chars in
      if String.eqb t "" && has_char chars c then "" else String c t
  end.

(** [s.split(sep)] for a separator of one character. *)
Fixpoint split (s : string) (sep : ascii) : list string :=
  match s with
  | EmptyString => [""]
  | String c s' =>
      if Ascii.eqb c sep then "" :: split s' sep
      else match split s' sep with
           | h :: t => String c h :: t
           | [] => [String c ""]
           end
  end.

End PyStr.

(** ** Exceptions and the process monad *)

Inductive exn : Type :=
| OSError (errno : Z)
| ValueError
| TypeError
| NameError (name : string)
| KeyError (key : string)
| AttributeError (attr : string).

Inductive outcome (A : Type) : Type :=
| Return (a : A)
| Raise (e : exn).
Arguments Return {A} a.
Arguments Raise {A} e.

(** The part of the process state the module can observe: what [stat(2)]
    answers for a resolved path ([None]: success, [Some errno]: failure with
    that error number, e.g. ENOENT = 2, EACCES = 13) and the current working
    directory against which the operating system resolves relative paths. *)
Record process : Type := Process {
  stat_errno : string -> option Z;
  cwd : string
}.

Definition Py (A : Type) : Type := process -> outcome A * process.

#[global] Instance Py_ret : MRet Py := fun A a w => (Return a, w).

#[global] Instance Py_bind : MBind Py := fun A B k m w =>
  match m w with
  | (Return a, w') => k a w'
  | (Raise e, w') => (Raise e, w')
  end.

Definition raise {A : Type} (e : exn) : Py A := fun w => (Raise e, w).

(** [try: body  except <classes>: handler] *)
Definition try_except {A : Type} (body : Py A) (classes : exn -> bool)
    (handler : Py A) : Py A := fun w =>
  match body w with
  | (Return a, w') => (Return a, w')
  | (Raise e, w') => if classes e then handler w' else (Raise e, w')
  end.

(** [for x in xs: body], threading the local variable the body updates. *)
Fixpoint for_in {A S : Type} (xs : list A) (body : A -> S -> Py S) (st : S)
    : Py S :=
  match xs with
  | [] => mret st
  | x :: xs' => st' ← body x st; for_in xs' body st'
  end.

(** [[f(x) for x in xs]]: the comprehension appends to a fresh list. *)
Definition list_comp {A B : Type} (f : A -> B) (xs : list A) : list B :=
  fold_left (fun acc x => acc ++ [f x]) xs [].

(** ** [os] and [os.path] (POSIX) *)

Module os_path.

Definition sep : string := "/".

(** [posixpath.isabs] *)
Definition isabs (s : string) : bool := PyStr.startswith s sep.

(** One round of the loop of [posixpath.join]. *)
Definition join_step (path b : string) : string :=
  if PyStr.startswith b sep then b
  else if String.eqb path "" || PyStr.endswith path sep then path +:+ b
  else path +:+ sep +:+ b.

(** [posixpath.join(a, *p)] *)
Definition join (a : string) (p : list string) : string :=
  fold_left join_step p a.

(** [posixpath.dirname] *)
Definition dirname (p : string) : string :=
  let i := PyStr.rfind p sep + 1 in
  let head := PyStr.slice_to p i in
  if negb (String.eqb head "") &&
     negb (String.eqb head (PyStr.repeat sep (String.length head)))
  then PyStr.rstrip head sep
  else head.

(** One round of the loop of [posixpath.normpath]; [initial_slashes] is 0,
    1 ([True]) or 2. *)
Definition normpath_step (initial_slashes : nat) (new_comps : list string)
    (comp : string) : list string :=
  if String.eqb comp "" || String.eqb comp "." then new_comps
  else if negb (String.eqb comp "..")
          || (Nat.eqb initial_slashes 0 && bool_decide (new_comps = []))
          || (negb (bool_decide (new_comps = []))
              && bool_decide (last new_comps = Some ".."))
  then new_comps ++ [comp]
  else if negb (bool_decide (new_comps = [])) then removelast new_comps
  else new_comps.

(** [posixpath.normpath] *)
Definition normpath (path : string) : string :=
  if String.eqb path "" then "."
  else
    let initial_slashes : nat :=
      if PyStr.startswith path sep then
        if PyStr.startswith path (PyStr.repeat sep 2)
           && negb (PyStr.startswith path (PyStr.repeat sep 3))
        then 2%nat else 1%nat
      else 0%nat in
    let comps := PyStr.split path "/"%char in
    let new_comps := fold_left (normpath_step initial_slashes) comps [] in
    let path := PyStr.join sep new_comps in
    let path :=
      if Nat.eqb initial_slashes 0 then path
      else PyStr.repeat sep initial_slashes +:+ path in
    if String.eqb path "" then "." else path.

End os_path.

(** [os.stat(path)]: a path with an embedded NUL is rejected with
    [ValueError] before the system call; otherwise the kernel resolves the
    path (a relative one against the working directory) and the call raises
    [OSError] when [stat(2)] fails. *)
Definition os_stat (path : string) : Py unit := fun w =>
  if PyStr.has_nul path then raise ValueError w
  else match stat_errno w (os_path.join (cwd w) [path]) with
       | None => (mret tt : Py unit) w
       | Some errno => raise (OSError errno) w
       end.

(** [os.path.exists], as in [genericpath]:
    [try: os.stat(path)  except (OSError, ValueError): return False]
    [return True] *)
Definition os_path_exists (path : string) : Py bool :=
  try_except
    (_ ← os_stat path; mret true)
    (fun e => match e with OSError _ | ValueError => true | _ => false end)
    (mret false).

(** ** Values of the configuration snapshot *)

(** A float literal [digits * 10^-scale], as written in the source. *)
Record float_lit : Type := FloatLit { digits : Z; scale : nat }.

#[warnings="-register-all"]
Inductive pyval : Type :=
| PyStrV (s : string)
| PyInt (n : Z)
| PyBool (b : bool)
| PyFloat (x : float_lit)
| PyList (xs : list pyval)
| PyDict (items : list (string * pyval)).

(** [d[k]] on a dict value; the first binding of the key wins, which is the
    only one for a dict display with distinct keys. *)
Definition py_getitem (v : pyval) (k : string) : option pyval :=
  match v with
  | PyDict items => snd <$> List.find (fun kv => String.eqb (fst kv) k) items
  | _ => None
  end.

(** [list(d.keys())] *)
Definition py_keys (v : pyval) : list string :=
  match v with
  | PyDict items => fst <$> items
  | _ => []
  end.

(** [list(d.values())] *)
Definition py_values (v : pyval) : list pyval :=
  match v with
  | PyDict items => snd <$> items
  | _ => []
  end.

(** Structural equality of snapshot values. *)
Fixpoint pyval_eqb (a b : pyval) {struct a} : bool :=
  match a, b with
  | PyStrV s, PyStrV t => String.eqb s t
  | PyInt m, PyInt n => Z.eqb m n
  | PyBool x, PyBool y => Bool.eqb x y
  | PyFloat x, PyFloat y =>
      Z.eqb (digits x) (digits y) && Nat.eqb (scale x) (scale y)
  | PyList xs, PyList ys =>
      (fix go (xs ys : list pyval) {struct xs} : bool :=
         match xs, ys with
         | [], [] => true
         | x :: xs', y :: ys' => pyval_eqb x y && go xs' ys'
         | _, _ => false
         end) xs ys
  | PyDict xs, PyDict ys =>
      (fix go (xs ys : list (string * pyval)) {struct xs} : bool :=
         match xs, ys with
         | [], [] => true
         | (k, x) :: xs', (l, y) :: ys' =>
             String.eqb k l && pyval_eqb x y && go xs' ys'
         | _, _ => false
         end) xs ys
  | _, _ => false
  end.

(** ** The module [config] *)

(** *** Server *)
Definition SERVER_HOST : string := "localhost".
Definition SERVER_PORT : Z := 8080.
Definition SERVER_DEBUG : bool := false.

(** [f"http://{SERVER_HOST}:{SERVER_PORT}"] *)
Definition API_BASE_URL : string :=
  "http://" +:+ SERVER_HOST +:+ ":" +:+ PyStr.of_int SERVER_PORT.

(** *** Models *)
Definition DET_MODEL_PATH : string := "models/det.onnx".
Definition REC_MODEL_PATH : string := "models/rec.onnx".
Definition OCR_KEYS_PATH : string := "models/ppocr_keys_v1.txt".
Definition FONT_PATH : string := "assets/fonts/simfang.ttf".

(** *** Test images *)
Definition TEST_IMAGES_DIR : string := "assets/images".
Definition TEST_IMAGES : list string := ["1.jpg"; "11.jpg"; "12.jpg"].

(** *** OCR parameters *)
Definition DET_DB_THRESH : float_lit := FloatLit 3 1.
Definition DET_DB_BOX_THRESH : float_lit := FloatLit 5 1.
Definition MAX_CANDIDATES : Z := 2000.
Definition UNCLIP_RATIO : float_lit := FloatLit 16 1.
Definition USE_DILATION : bool := true.
Definition DROP_SCORE : float_lit := FloatLit 5 1.

(** *** Paths

    [PROJECT_ROOT = os.path.dirname(os.path.abspath(__file__))] is fixed when
    the module is imported and depends on where the module file lies; the
    functions that read it take it as a section variable. *)
Section Paths.

Variable PROJECT_ROOT : string.

Definition get_test_image_path (filename : string) : string :=
  os_path.join PROJECT_ROOT [TEST_IMAGES_DIR; filename].

Definition get_test_images : list string :=
  list_comp get_test_image_path TEST_IMAGES.

End Paths.

(** *** Endpoints *)
Definition ENDPOINTS : gmap string string :=
  <["ocr" := "/ocr"]> (<["health" := "/health"]> (<["info" := "/"]> ∅)).

(** [f"{API_BASE_URL}{ENDPOINTS.get(endpoint, endpoint)}"] *)
Definition get_api_url (endpoint : string) : string :=
  API_BASE_URL +:+ default endpoint (ENDPOINTS !! endpoint).

(** *** Required files *)
Definition REQUIRED_FILES : list string :=
  [DET_MODEL_PATH; REC_MODEL_PATH; OCR_KEYS_PATH; FONT_PATH].

Definition check_required_files : Py (list string) :=
  for_in REQUIRED_FILES
    (fun file_path missing_files =>
       found ← os_path_exists file_path;
       if negb found then mret (missing_files ++ [file_path])
       else mret missing_files)
    [].

(** *** Validation

    [validate_config] reads the global [SERVER_PORT] when it is called; its
    body is written over the value read, so that the port check can be
    stated for every value the global may hold. *)
Definition validate_config_with (server_port : Z) : Py (list string) :=
  let errors : list string := [] in
  let errors :=
    if negb ((1024 <=? server_port) && (server_port <=? 65535))
    then errors ++ ["端口 " +:+ PyStr.of_int server_port
                      +:+ " 不在有效范围内 (1024-65535)"]
    else errors in
  missing_files ← check_required_files;
  let errors :=
    match missing_files with
    | [] => errors
    | _ :: _ =>
        errors ++ ["缺少必需文件: " +:+ PyStr.join ", " missing_files]
    end in
  mret errors.

Definition validate_config : Py (list string) :=
  validate_config_with SERVER_PORT.

(** *** Snapshot

    The module's namespace binds each global name to a value.  Strings,
    numbers and booleans are immutable and are held by value; a list is a
    mutable object on the heap and is held by reference, so that every
    holder of the reference sees an update made through any of them.  A dict
    that a call builds and returns is held by the caller alone and is kept
    by value.  The elements of a list object are kept by value; the module
    stores only strings in its lists. *)
Definition loc : Type := positive.

#[warnings="-register-all"]
Inductive pyref : Type :=
| RStr (s : string)
| RInt (n : Z)
| RBool (b : bool)
| RFloat (x : float_lit)
| RList (l : loc)
| RDict (items : list (string * pyref)).

Record module_state : Type := ModuleState {
  globals : gmap string pyref;
  heap : loc -> list pyval
}.

Definition Interp (A : Type) : Type :=
  module_state -> outcome A * module_state.

#[global] Instance Interp_ret : MRet Interp := fun A a m => (Return a, m).

#[global] Instance Interp_bind : MBind Interp := fun A B k c m =>
  match c m with
  | (Return a, m') => k a m'
  | (Raise e, m') => (Raise e, m')
  end.

(** Reading a global name. *)
Definition load_global (name : string) : Interp pyref := fun m =>
  match globals m !! name with
  | Some v => (Return v, m)
  | None => (Raise (NameError name), m)
  end.

(** The dict display of [get_config_info]: the names are read in the order
    of the display, and the value found under each is put in as it is. *)
Definition get_config_info : Interp pyref :=
  host ← load_global "SERVER_HOST";
  port ← load_global "SERVER_PORT";
  debug ← load_global "SERVER_DEBUG";
  base_url ← load_global "API_BASE_URL";
  det_model ← load_global "DET_MODEL_PATH";
  rec_model ← load_global "REC_MODEL_PATH";
  ocr_keys ← load_global "OCR_KEYS_PATH";
  font ← load_global "FONT_PATH";
  images_dir ← load_global "TEST_IMAGES_DIR";
  images ← load_global "TEST_IMAGES";
  det_db_thresh ← load_global "DET_DB_THRESH";
  det_db_box_thresh ← load_global "DET_DB_BOX_THRESH";
  max_candidates ← load_global "MAX_CANDIDATES";
  unclip_ratio ← load_global "UNCLIP_RATIO";
  use_dilation ← load_global "USE_DILATION";
  drop_score ← load_global "DROP_SCORE";
  mret (RDict [
    ("server", RDict [
       ("host", host);
       ("port", port);
       ("debug", debug);
       ("base_url", base_url)]);
    ("models", RDict [
       ("det_model", det_model);
       ("rec_model", rec_model);
       ("ocr_keys", ocr_keys);
       ("font", font)]);
    ("test", RDict [
       ("images_dir", images_dir);
       ("images", images)]);
    ("ocr", RDict [
       ("det_db_thresh", det_db_thresh);
       ("det_db_box_thresh", det_db_box_thresh);
       ("max_candidates", max_candidates);
       ("unclip_ratio", unclip_ratio);
       ("use_dilation", use_dilation);
       ("drop_score", drop_score)])
  ]).

(** The names [get_config_info] reads, as the module binds them when it has
    just been loaded; the list of [TEST_IMAGES] is the object at address 1. *)
Definition loaded : module_state :=
  ModuleState
    (list_to_map [
       ("SERVER_HOST", RStr SERVER_HOST);
       ("SERVER_PORT", RInt SERVER_PORT);
       ("SERVER_DEBUG", RBool SERVER_DEBUG);
       ("API_BASE_URL", RStr API_BASE_URL);
       ("DET_MODEL_PATH", RStr DET_MODEL_PATH);
       ("REC_MODEL_PATH", RStr REC_MODEL_PATH);
       ("OCR_KEYS_PATH", RStr OCR_KEYS_PATH);
       ("FONT_PATH", RStr FONT_PATH);
       ("TEST_IMAGES_DIR", RStr TEST_IMAGES_DIR);
       ("TEST_IMAGES", RList 1%positive);
       ("DET_DB_THRESH", RFloat DET_DB_THRESH);
       ("DET_DB_BOX_THRESH", RFloat DET_DB_BOX_THRESH);
       ("MAX_CANDIDATES", RInt MAX_CANDIDATES);
       ("UNCLIP_RATIO", RFloat UNCLIP_RATIO);
       ("USE_DILATION", RBool USE_DILATION);
       ("DROP_SCORE", RFloat DROP_SCORE)])
    (fun l => if decide (l = 1%positive) then PyStrV <$> TEST_IMAGES else []).

(** The loaded module with the global [SERVER_PORT] holding [server_port]. *)
Definition loaded_with_port (server_port : Z) : module_state :=
  ModuleState (<["SERVER_PORT" := RInt server_port]> (globals loaded))
              (heap loaded).

(** *** What the holder of a value can do with it *)

(** A value read in depth, each list reference followed to the contents the
    object has at that moment: what [json.dumps] or [copy.deepcopy] sees. *)
Fixpoint resolve (h : loc -> list pyval) (v : pyref) : pyval :=
  match v with
  | RStr s => PyStrV s
  | RInt n => PyInt n
  | RBool b => PyBool b
  | RFloat x => PyFloat x
  | RList l => PyList (h l)
  | RDict items =>
      PyDict (List.map (fun kv => (fst kv, resolve h (snd kv))) items)
  end.

Definition deep_read (v : pyref) : Interp pyval := fun m =>
  (Return (resolve (heap m) v), m).

(** [v[k]] *)
Definition subscript (v : pyref) (k : string) : Interp pyref := fun m =>
  match v with
  | RDict items =>
      match List.find (fun kv => String.eqb (fst kv) k) items with
      | Some kv => (Return (snd kv), m)
      | None => (Raise (KeyError k), m)
      end
  | _ => (Raise TypeError, m)
  end.

(** [v.append(x)]: the list object itself is updated. *)
Definition list_append (v : pyref) (x : pyval) : Interp unit := fun m =>
  match v with
  | RList l =>
      (Return tt,
       ModuleState (globals m)
         (fun l' => if decide (l' = l) then heap m l ++ [x] else heap m l'))
  | _ => (Raise (AttributeError "append"), m)
  end.

(** A caller that takes a snapshot, appends a name to the image list it
    finds in it, and takes a second snapshot; each snapshot is read in depth
    as soon as it is returned. *)
Definition snapshot_append_snapshot : Interp (pyval * pyval) :=
  first ← get_config_info;
  first_seen ← deep_read first;
  test ← subscript first "test";
  images ← subscript test "images";
  _ ← list_append images (PyStrV "extra.jpg");
  second ← get_config_info;
  second_seen ← deep_read second;
  mret (first_seen, second_seen).

(** Where [get_config_info] puts each global: group, key, global name. *)
Definition config_info_layout : list (string * string * string) :=
  [("server", "host", "SERVER_HOST");
   ("server", "port", "SERVER_PORT");
   ("server", "debug", "SERVER_DEBUG");
   ("server", "base_url", "API_BASE_URL");
   ("models", "det_model", "DET_MODEL_PATH");
   ("models", "rec_model", "REC_MODEL_PATH");
   ("models", "ocr_keys", "OCR_KEYS_PATH");
   ("models", "font", "FONT_PATH");
   ("test", "images_dir", "TEST_IMAGES_DIR");
   ("test", "images", "TEST_IMAGES");
   ("ocr", "det_db_thresh", "DET_DB_THRESH");
   ("ocr", "det_db_box_thresh", "DET_DB_BOX_THRESH");
   ("ocr", "max_candidates", "MAX_CANDIDATES");
   ("ocr", "unclip_ratio", "UNCLIP_RATIO");
   ("ocr", "use_dilation", "USE_DILATION");
   ("ocr", "drop_score", "DROP_SCORE")].

(** [v[group][key]] and [list(v.keys())] on a value held by reference. *)
Definition ref_getitem (v : pyref) (k : string) : option pyref :=
  match v with
  | RDict items => snd <$> List.find (fun kv => String.eqb (fst kv) k) items
  | _ => None
  end.

Definition ref_keys (v : pyref) : list string :=
  match v with
  | RDict items => fst <$> items
  | _ => []
  end.

(** The snapshot of the loaded module read in depth, with the global
    [SERVER_PORT] holding [server_port]. *)
Definition config_info_for (server_port : Z) : pyval :=
  PyDict [
    ("server", PyDict [
       ("host", PyStrV SERVER_HOST);
       ("port", PyInt server_port);
       ("debug", PyBool SERVER_DEBUG);
       ("base_url", PyStrV API_BASE_URL)]);
    ("models", PyDict [
       ("det_model", PyStrV DET_MODEL_PATH);
       ("rec_model", PyStrV REC_MODEL_PATH);
       ("ocr_keys", PyStrV OCR_KEYS_PATH);
       ("font", PyStrV FONT_PATH)]);
    ("test", PyDict [
       ("images_dir", PyStrV TEST_IMAGES_DIR);
       ("images", PyList (PyStrV <$> TEST_IMAGES))]);
    ("ocr", PyDict [
       ("det_db_thresh", PyFloat DET_DB_THRESH);
       ("det_db_box_thresh", PyFloat DET_DB_BOX_THRESH);
       ("max_candidates", PyInt MAX_CANDIDATES);
       ("unclip_ratio", PyFloat UNCLIP_RATIO);
       ("use_dilation", PyBool USE_DILATION);
       ("drop_score", PyFloat DROP_SCORE)])
  ].

(** ** Specification-side vocabulary *)

(** The required files whose existence check fails when a relative path is
    resolved against directory [dir], in declared order. *)
Definition missing_under (stat : string -> option Z) (dir : string)
    : list string :=
  filter (fun p => is_Some (stat (os_path.join dir [p]))) REQUIRED_FILES.

(** The two messages [validate_config] can produce. *)
Definition port_message (port : Z) : string :=
  "端口 " +:+ PyStr.of_int port +:+ " 不在有效范围内 (1024-65535)".

Definition missing_message (missing : list string) : string :=
  "缺少必需文件: " +:+ PyStr.join ", " missing.

(** A directory prefix as a path join leaves it: a separator is supplied
    unless the prefix is empty or already ends with one. *)
Definition with_sep (dir : string) : string :=
  if String.eqb dir "" || PyStr.endswith dir os_path.sep then dir
  else dir +:+ os_path.sep.

(** The environment changing under the process between two calls. *)
Definition environment_becomes (w' : process) : Py unit :=
  fun _ => (Return tt, w').

(** *** Sample environments *)

(** A process in which the recognition model and the font are absent from
    the working directory [/srv/ocr]. *)
Definition sample_process : process :=
  Process
    (fun p =>
       if String.eqb p "/srv/ocr/models/rec.onnx" then Some 2
       else if String.eqb p "/srv/ocr/assets/fonts/simfang.ttf" then Some 2
       else None)
    "/srv/ocr".

(** A filesystem on which exactly the paths below [/srv/ocr/] exist. *)
Definition installed_under_srv_ocr (p : string) : option Z :=
  if PyStr.startswith p "/srv/ocr/" then None else Some 2.

(** The detection model is unreadable (EACCES); everything else is there. *)
Definition permission_denied_process : process :=
  Process
    (fun p => if String.eqb p "/srv/ocr/models/det.onnx" then Some 13
              else None)
    "/srv/ocr".

(** ** The rest of the module *)

(** [os.getcwd()], for a working directory that exists. *)
Definition os_getcwd : Py string := fun w => (Return (cwd w), w).

(** [posixpath.abspath] *)
Definition os_path_abspath (path : string) : Py string :=
  if negb (os_path.isabs path) then
    cwd' ← os_getcwd;
    mret (os_path.normpath (os_path.join cwd' [path]))
  else mret (os_path.normpath path).

(** [PROJECT_ROOT = os.path.dirname(os.path.abspath(__file__))], evaluated
    when the module is loaded from [module_file]. *)
Definition PROJECT_ROOT (module_file : string) : Py string :=
  p ← os_path_abspath module_file;
  mret (os_path.dirname p).

(** *** Standard output

    The self-check prints; a process with a console keeps the arguments of
    the [print] calls made so far, each of which went out as one line of
    text followed by a newline.  Standard output is taken to accept the
    text, which is what the start-up code of the module arranges. *)
Record console : Type := Console {
  proc : process;
  printed : list string
}.

Definition Io (A : Type) : Type := console -> outcome A * console.

#[global] Instance Io_ret : MRet Io := fun A a c => (Return a, c).

#[global] Instance Io_bind : MBind Io := fun A B k m c =>
  match m c with
  | (Return a, c') => k a c'
  | (Raise e, c') => (Raise e, c')
  end.

(** A computation of the module run in a process that has a console. *)
Definition run_py {A : Type} (m : Py A) : Io A := fun c =>
  match m (proc c) with
  | (r, w') => (r, Console w' (printed c))
  end.

(** [print(s)] *)
Definition print (s : string) : Io unit := fun c =>
  (Return tt, Console (proc c) (printed c ++ [s])).

(** [for x in xs: body] for a body that only acts. *)
Fixpoint for_each {A : Type} (xs : list A) (body : A -> Io unit) : Io unit :=
  match xs with
  | [] => mret tt
  | x :: xs' => _ ← body x; for_each xs' body
  end.

Definition newline : string := String (ascii_of_nat 10) "".

(** A computation over the module's namespace run from a process that has
    a console; the block below runs when the module has just been loaded,
    and nothing in it rebinds a global or updates a list. *)
Definition in_module {A : Type} (m : module_state) (c : Interp A) : Io A :=
  fun k => (fst (c m), k).

(** The block under [if __name__ == "__main__"].  [json_dumps] stands for
    [json.dumps(_, indent=2, ensure_ascii=False)] of the standard library,
    applied to what it reads of its argument; as for [validate_config], the
    body is written over the value the global [SERVER_PORT] holds. *)
Section SelfCheck.

Variable json_dumps : pyval -> string.

Definition self_check_with (server_port : Z) : Io unit :=
  errors ← run_py (validate_config_with server_port);
  match errors with
  | _ :: _ =>
      _ ← print "❌ 配置验证失败:";
      for_each errors (fun error => print ("  - " +:+ error))
  | [] =>
      _ ← print "✅ 配置验证通过";
      _ ← print (newline +:+ "📋 配置信息:");
      snapshot ← in_module (loaded_with_port server_port)
                   (info ← get_config_info; deep_read info);
      print (json_dumps snapshot)
  end.

Definition self_check : Io unit := self_check_with SERVER_PORT.

End SelfCheck.

(** A path component that [normpath] keeps as it is: not empty, not [.] or
    [..], and without a separator. *)
Definition plain_name (c : string) : Prop :=
  c <> "" /\ c <> "." /\ c <> ".." /\ PyStr.has_char c "/" = false.

Ltac unfold_py :=
  unfold os_path_exists, try_except, os_stat, raise, mbind, Py_bind, mret,
    Py_ret.

(** ** Strings *)

Lemma string_eqb_length_ne (s t : string) :
  String.length s <> String.length t -> String.eqb s t = false.
Proof.
  intros Hlen. apply String.eqb_neq. intros ->. by apply Hlen.
Qed.

Lemma string_length_app (a b : string) :
  String.length (a +:+ b) = (String.length a + String.length b)%nat.
Proof.
  induction a as [|c a IH]; [done|].
  change (String c a +:+ b) with (String c (a +:+ b)).
  cbn [String.length]. by rewrite IH.
Qed.

Lemma endswith_app (a b p : string) :
  (String.length p <= String.length b)%nat ->
  PyStr.endswith (a +:+ b) p = PyStr.endswith b p.
Proof.
  intros Hlen. induction a as [|c a IH]; [done|].
  change (String c a +:+ b) with (String c (a +:+ b)).
  cbn [PyStr.endswith]. rewrite IH.
  rewrite string_eqb_length_ne; [done|].
  cbn [String.length]. rewrite string_length_app. lia.
Qed.

Lemma app_nonempty_r (a b : string) :
  b <> "" -> String.eqb (a +:+ b) "" = false.
Proof.
  intros Hb. apply string_eqb_length_ne.
  rewrite string_length_app. destruct b; [done|]. cbn. lia.
Qed.

(** ** Running the existence checks *)

Lemma os_path_exists_run (path : string) (w : process) :
  os_path_exists path w =
    (Return (negb (PyStr.has_nul path) &&
             bool_decide (stat_errno w (os_path.join (cwd w) [path]) = None)),
     w).
Proof.
  unfold_py. destruct (PyStr.has_nul path); [done|].
  by destruct (stat_errno w _).
Qed.

(** The loop of [check_required_files] started from any accumulator. *)
Lemma missing_loop (xs acc : list string) (w : process) :
  Forall (fun p => PyStr.has_nul p = false) xs ->
  for_in xs
    (fun file_path missing_files =>
       found ← os_path_exists file_path;
       if negb found then mret (missing_files ++ [file_path])
       else mret missing_files)
    acc w
  = (Return (acc ++
       filter (fun p => is_Some (stat_errno w (os_path.join (cwd w) [p]))) xs),
     w).
Proof.
  intros Hnul. revert acc.
  induction Hnul as [|p xs Hp _ IH]; intros acc.
  - cbn. by rewrite app_nil_r.
  - cbn [for_in]. unfold mbind at 1, Py_bind at 1.
    unfold mbind at 1, Py_bind at 1.
    rewrite os_path_exists_run, Hp. cbn [negb andb].
    rewrite filter_cons.
    destruct (stat_errno w (os_path.join (cwd w) [p])) as [errno|] eqn:Hstat.
    + rewrite bool_decide_eq_false_2 by done. cbn [negb].
      unfold mret at 1, Py_ret at 1. rewrite IH.
      rewrite decide_True by eauto. by rewrite <- app_assoc.
    + rewrite bool_decide_eq_true_2 by done. cbn [negb].
      unfold mret at 1, Py_ret at 1. rewrite IH.
      rewrite decide_False; [done|]. by intros [? ?].
Qed.

Lemma REQUIRED_FILES_no_nul :
  Forall (fun p => PyStr.has_nul p = false) REQUIRED_FILES.
Proof. repeat constructor. Qed.

Lemma check_required_files_run (w : process) :
  check_required_files w = (Return (missing_under (stat_errno w) (cwd w)), w).
Proof.
  unfold check_required_files.
  by rewrite (missing_loop _ _ _ REQUIRED_FILES_no_nul).
Qed.

Lemma validate_config_with_run (port : Z) (w : process) :
  validate_config_with port w =
    (Return
       ((if (1024 <=? port) && (port <=? 65535) then []
         else [port_message port]) ++
        (match missing_under (stat_errno w) (cwd w) with
         | [] => []
         | _ :: _ => [missing_message (missing_under (stat_errno w) (cwd w))]
         end)),
     w).
Proof.
  unfold validate_config_with, mbind, Py_bind.
  rewrite check_required_files_run.
  destruct ((1024 <=? port) && (port <=? 65535));
    destruct (missing_under _ _); reflexivity.
Qed.

Lemma missing_under_nil (stat : string -> option Z) (dir : string) :
  missing_under stat dir = [] <->
  Forall (fun p => stat (os_path.join dir [p]) = None) REQUIRED_FILES.
Proof.
  unfold missing_under. induction REQUIRED_FILES as [|p ps IH].
  - split; [constructor | done].
  - rewrite filter_cons, Forall_cons. case_decide as Hp.
    + split; [done|]. intros [Hnone _]. rewrite Hnone in Hp.
      by destruct Hp.
    + rewrite IH. apply eq_None_not_Some in Hp. tauto.
Qed.

(** ** Validation *)

(** C1. [validate_config] runs the port-range check and then the
    required-files check.  With the port in [1024, 65535] and all four
    required files present the result is empty; a port outside the range
    contributes exactly one port-range message, placed first; missing files
    contribute exactly one message that names every missing path,
    comma-joined, in the order of [REQUIRED_FILES].  The process state is
    left as it was.  The module's own port, 8080, is the value read. *)
Theorem validate_config_two_checks (port : Z) (w : process) :
  let all_exist :=
    Forall (fun p => stat_errno w (os_path.join (cwd w) [p]) = None)
           REQUIRED_FILES in
  let missing :=
    filter (fun p => is_Some (stat_errno w (os_path.join (cwd w) [p])))
           REQUIRED_FILES in
  (1024 <= port <= 65535 -> all_exist ->
     validate_config_with port w = (Return [], w)) /\
  (~ 1024 <= port <= 65535 -> all_exist ->
     validate_config_with port w = (Return [port_message port], w)) /\
  (1024 <= port <= 65535 -> ~ all_exist ->
     validate_config_with port w =
       (Return ["缺少必需文件: " +:+ String.concat ", " missing], w)) /\
  (~ 1024 <= port <= 65535 -> ~ all_exist ->
     validate_config_with port w =
       (Return [port_message port;
                "缺少必需文件: " +:+ String.concat ", " missing], w)) /\
  validate_config w = validate_config_with 8080 w.
Proof.
  intros all_exist missing.
  assert (Hin : 1024 <= port <= 65535 ->
                (1024 <=? port) && (port <=? 65535) = true).
  { intros [? ?]. apply andb_true_intro. split; by apply Z.leb_le. }
  assert (Hout : ~ 1024 <= port <= 65535 ->
                 (1024 <=? port) && (port <=? 65535) = false).
  { intros Hn. apply andb_false_iff.
    destruct (Z.leb_spec 1024 port); [|by left].
    destruct (Z.leb_spec port 65535); [|by right]. exfalso. apply Hn. lia. }
  assert (Hnil : all_exist -> missing_under (stat_errno w) (cwd w) = []).
  { intros H. by apply missing_under_nil. }
  assert (Hcons : ~ all_exist ->
            exists p ps, missing_under (stat_errno w) (cwd w) = p :: ps).
  { intros H. destruct (missing_under (stat_errno w) (cwd w)) eqn:E; [|eauto].
    exfalso. apply H. by apply missing_under_nil. }
  repeat split.
  - intros Hr He. rewrite validate_config_with_run, (Hin Hr), (Hnil He). done.
  - intros Hr He. rewrite validate_config_with_run, (Hout Hr), (Hnil He). done.
  - intros Hr He. rewrite validate_config_with_run, (Hin Hr).
    destruct (Hcons He) as (p & ps & E).
    fold (missing_under (stat_errno w) (cwd w)) in missing.
    subst missing. rewrite E. done.
  - intros Hr He. rewrite validate_config_with_run, (Hout Hr).
    destruct (Hcons He) as (p & ps & E).
    fold (missing_under (stat_errno w) (cwd w)) in missing.
    subst missing. rewrite E. done.
Qed.

Lemma validate_config_two_checks_witness :
  validate_config_with 80 sample_process =
    (Return ["端口 80 不在有效范围内 (1024-65535)";
             "缺少必需文件: models/rec.onnx, assets/fonts/simfang.ttf"],
     sample_process).
Proof.
  refine (proj1 (proj2 (proj2 (proj2
            (validate_config_two_checks 80 sample_process)))) _ _).
  - lia.
  - intros H. apply Forall_cons_1 in H as [_ H].
    apply Forall_cons_1 in H as [H _]. discriminate H.
Defined.

(** ** Endpoint URLs *)

Lemma API_BASE_URL_value : API_BASE_URL = "http://localhost:8080".
Proof. reflexivity. Qed.

Lemma ENDPOINTS_unknown (key : string) :
  key <> "ocr" -> key <> "health" -> key <> "info" -> ENDPOINTS !! key = None.
Proof.
  intros Hocr Hhealth Hinfo. unfold ENDPOINTS.
  rewrite !lookup_insert_ne by done. apply lookup_empty.
Qed.

(** C2. [get_api_url] is total; the result is the base URL
    [http://localhost:8080] followed by the mapped path when the key is in
    [ENDPOINTS], and by the key itself, with nothing in between, when it is
    not.  The map holds exactly the keys [ocr], [health] and [info]. *)
Theorem get_api_url_lookup_or_literal :
  (forall key path, ENDPOINTS !! key = Some path ->
     get_api_url key = "http://localhost:8080" +:+ path) /\
  (forall key, ENDPOINTS !! key = None ->
     get_api_url key = "http://localhost:8080" +:+ key) /\
  (forall key, key <> "ocr" -> key <> "health" -> key <> "info" ->
     get_api_url key = "http://localhost:8080" +:+ key) /\
  get_api_url "ocr" = "http://localhost:8080/ocr" /\
  get_api_url "health" = "http://localhost:8080/health" /\
  get_api_url "info" = "http://localhost:8080/" /\
  get_api_url "unknown-key" = "http://localhost:8080unknown-key".
Proof.
  split; [|split; [|split]].
  - intros key path H. unfold get_api_url.
    by rewrite H, API_BASE_URL_value.
  - intros key H. unfold get_api_url. by rewrite H, API_BASE_URL_value.
  - intros key H1 H2 H3. unfold get_api_url.
    by rewrite ENDPOINTS_unknown, API_BASE_URL_value.
  - repeat split; reflexivity.
Qed.

Lemma get_api_url_lookup_or_literal_witness :
  get_api_url "health" = "http://localhost:8080" +:+ "/health" /\
  get_api_url "v2/ocr" = "http://localhost:8080" +:+ "v2/ocr".
Proof.
  split.
  - apply (proj1 get_api_url_lookup_or_literal "health" "/health").
    reflexivity.
  - apply (proj1 (proj2 get_api_url_lookup_or_literal) "v2/ocr").
    reflexivity.
Defined.

(** ** Test image paths *)

Lemma string_app_assoc (a b c : string) : (a +:+ b) +:+ c = a +:+ b +:+ c.
Proof.
  induction a as [|ch a IH]; [done|].
  change ((String ch a +:+ b) +:+ c) with (String ch ((a +:+ b) +:+ c)).
  by rewrite IH.
Qed.

Lemma list_comp_fmap {A B : Type} (f : A -> B) (xs : list A) :
  list_comp f xs = f <$> xs.
Proof.
  unfold list_comp.
  enough (forall acc, fold_left (fun acc x => acc ++ [f x]) xs acc
                      = acc ++ (f <$> xs)) as H by apply H.
  induction xs as [|x xs IH]; intros acc; cbn.
  - by rewrite app_nil_r.
  - by rewrite IH, <- app_assoc.
Qed.

Lemma join_step_dir (root : string) :
  os_path.join_step root TEST_IMAGES_DIR = with_sep root +:+ TEST_IMAGES_DIR.
Proof.
  unfold os_path.join_step, with_sep.
  change (PyStr.startswith TEST_IMAGES_DIR os_path.sep) with false.
  cbv iota. destruct (String.eqb root "" || PyStr.endswith root os_path.sep).
  - done.
  - by rewrite string_app_assoc.
Qed.

(** A relative file name lands under the test-images directory. *)
Lemma get_test_image_path_relative (root filename : string) :
  os_path.isabs filename = false ->
  get_test_image_path root filename =
    with_sep root +:+ TEST_IMAGES_DIR +:+ "/" +:+ filename.
Proof.
  intros Hrel. unfold get_test_image_path, os_path.join. cbn [fold_left].
  rewrite join_step_dir. unfold os_path.join_step at 1.
  unfold os_path.isabs in Hrel. rewrite Hrel.
  rewrite app_nonempty_r by done.
  rewrite endswith_app by (cbn; lia).
  change (PyStr.endswith TEST_IMAGES_DIR os_path.sep) with false.
  cbn [orb]. by rewrite string_app_assoc.
Qed.

Lemma TEST_IMAGES_relative (name : string) :
  name ∈ TEST_IMAGES -> os_path.isabs name = false.
Proof.
  unfold TEST_IMAGES. rewrite !elem_of_cons, elem_of_nil.
  intros [-> | [-> | [-> | []]]]; reflexivity.
Qed.

(** C6. [get_test_images] has as many elements as [TEST_IMAGES], and its
    i-th element is [get_test_image_path] of the i-th file name. *)
Theorem get_test_images_pointwise (root : string) :
  length (get_test_images root) = length TEST_IMAGES /\
  forall i : nat,
    get_test_images root !! i = get_test_image_path root <$> TEST_IMAGES !! i.
Proof.
  unfold get_test_images. rewrite list_comp_fmap. split.
  - apply length_fmap.
  - intros i. apply list_lookup_fmap.
Qed.

(** C7. For a file name of [TEST_IMAGES], [get_test_image_path] is the
    project root, the test-images directory and the name, in that order,
    joined by the separator: one separator between directory and name, and
    one between root and directory unless the root already ends with it (or
    is empty).  For a root that does not end with the separator this is
    [root/assets/images/name].  The function is a pure string computation:
    it reads no process state. *)
Theorem get_test_image_path_joined (root name : string) :
  name ∈ TEST_IMAGES ->
  get_test_image_path root name =
    with_sep root +:+ String.concat "/" [TEST_IMAGES_DIR; name] /\
  (root <> "" -> PyStr.endswith root "/" = false ->
   get_test_image_path root name =
     String.concat "/" [root; TEST_IMAGES_DIR; name]).
Proof.
  intros Hin. apply TEST_IMAGES_relative in Hin.
  rewrite (get_test_image_path_relative _ _ Hin). split; [done|].
  intros Hne Hsep. unfold with_sep. change os_path.sep with "/".
  rewrite Hsep. apply String.eqb_neq in Hne. rewrite Hne. cbn [orb].
  cbn [String.concat]. by rewrite string_app_assoc.
Qed.

Lemma get_test_image_path_joined_witness :
  get_test_image_path "/srv/ocr/src/utils" "11.jpg" =
    "/srv/ocr/src/utils/assets/images/11.jpg" /\
  get_test_image_path "/" "11.jpg" = "/assets/images/11.jpg".
Proof.
  split.
  - refine (proj2 (get_test_image_path_joined "/srv/ocr/src/utils" "11.jpg" _)
                  _ _).
    + apply list_elem_of_lookup_2 with 1%nat. reflexivity.
    + discriminate.
    + reflexivity.
  - refine (proj1 (get_test_image_path_joined "/" "11.jpg" _)).
    apply list_elem_of_lookup_2 with 1%nat. reflexivity.
Defined.

(** C10. An absolute file name is returned unchanged: the join discards the
    project root and the test-images directory.  The result therefore lies
    under a given directory exactly when the file name itself does. *)
Theorem get_test_image_path_absolute (root filename : string) :
  os_path.isabs filename = true ->
  get_test_image_path root filename = filename /\
  forall dir, PyStr.startswith (get_test_image_path root filename) dir
              = PyStr.startswith filename dir.
Proof.
  intros Habs.
  assert (H : get_test_image_path root filename = filename).
  { unfold get_test_image_path, os_path.join. cbn [fold_left].
    unfold os_path.join_step at 1. unfold os_path.isabs in Habs.
    by rewrite Habs. }
  split; [done|]. intros dir. by rewrite H.
Qed.

Lemma get_test_image_path_absolute_witness :
  get_test_image_path "/srv/ocr/src/utils" "/etc/passwd" = "/etc/passwd" /\
  PyStr.startswith
    (get_test_image_path "/srv/ocr/src/utils" "/etc/passwd")
    "/srv/ocr/src/utils" = false.
Proof.
  destruct (get_test_image_path_absolute "/srv/ocr/src/utils" "/etc/passwd")
    as [Heq Hunder]; [reflexivity|].
  split; [exact Heq|]. rewrite Hunder. reflexivity.
Defined.

(** ** Required files *)

Lemma filter_ext_Forall {A : Type} (P Q : A -> Prop)
    `{!forall x, Decision (P x)} `{!forall x, Decision (Q x)} (l : list A) :
  Forall (fun x => P x <-> Q x) l -> filter P l = filter Q l.
Proof.
  induction 1 as [|x l Hx _ IH]; [done|].
  rewrite !filter_cons, IH.
  destruct (decide (P x)), (decide (Q x)); tauto.
Qed.

(** How the operating system resolves a relative path. *)
Lemma join_relative (dir path : string) :
  os_path.isabs path = false ->
  os_path.join dir [path] = with_sep dir +:+ path.
Proof.
  intros Hrel. unfold os_path.join, os_path.join_step, with_sep.
  cbn [fold_left]. unfold os_path.isabs in Hrel. rewrite Hrel.
  destruct (String.eqb dir "" || PyStr.endswith dir os_path.sep); [done|].
  by rewrite string_app_assoc.
Qed.

Lemma REQUIRED_FILES_relative :
  Forall (fun p => os_path.isabs p = false) REQUIRED_FILES.
Proof. repeat constructor. Qed.

(** C3, as stated, fails: no directory fixed by the installation is the one
    the required paths are resolved against.  On one and the same
    filesystem, the process started in [/srv/ocr] finds all four files and
    the process started in [/tmp] finds none. *)
Lemma check_required_files_no_fixed_root :
  ~ exists root : string, forall w : process,
      check_required_files w =
        (Return (missing_under (stat_errno w) root), w).
Proof.
  intros [root Hroot].
  pose proof (Hroot (Process installed_under_srv_ocr "/srv/ocr")) as Hsrv.
  pose proof (Hroot (Process installed_under_srv_ocr "/tmp")) as Htmp.
  rewrite check_required_files_run in Hsrv, Htmp. cbn [stat_errno cwd] in *.
  assert (Heq : missing_under installed_under_srv_ocr "/srv/ocr"
                = missing_under installed_under_srv_ocr "/tmp")
    by congruence.
  vm_compute in Heq. discriminate Heq.
Qed.

(** C3, amended.  The four required paths are relative, and
    [check_required_files] hands them to the existence check as they are:
    each is resolved against the working directory the process has at the
    time of the call, and the paths whose check fails are returned. *)
Theorem check_required_files_resolves_against_cwd (w : process) :
  Forall (fun p => os_path.isabs p = false) REQUIRED_FILES /\
  check_required_files w =
    (Return
       (filter (fun p => is_Some (stat_errno w (with_sep (cwd w) +:+ p)))
               REQUIRED_FILES),
     w).
Proof.
  split; [apply REQUIRED_FILES_relative|].
  rewrite check_required_files_run. unfold missing_under.
  f_equal. f_equal. apply filter_ext_Forall.
  eapply Forall_impl; [apply REQUIRED_FILES_relative|].
  intros p Hp. cbn beta. by rewrite (join_relative _ _ Hp).
Qed.

(** C4. [check_required_files] and [validate_config] always return a list
    and never raise, whatever the filesystem answers; a [stat] that fails
    with any error number (13, permission denied, as much as 2, no such
    file) makes [os.path.exists] answer [False], and the path is reported
    missing. *)
Theorem checks_never_raise :
  (forall w, exists missing, check_required_files w = (Return missing, w)) /\
  (forall port w, exists errors,
     validate_config_with port w = (Return errors, w)) /\
  (forall w, exists errors, validate_config w = (Return errors, w)) /\
  (forall w p errno,
     p ∈ REQUIRED_FILES ->
     stat_errno w (os_path.join (cwd w) [p]) = Some errno ->
     os_path_exists p w = (Return false, w) /\
     exists missing,
       check_required_files w = (Return missing, w) /\ p ∈ missing).
Proof.
  split; [|split; [|split]].
  - intros w. eexists. apply check_required_files_run.
  - intros port w. eexists. apply validate_config_with_run.
  - intros w. eexists. apply validate_config_with_run.
  - intros w p errno Hin Hstat. split.
    + rewrite os_path_exists_run, Hstat.
      rewrite bool_decide_eq_false_2 by done. by rewrite andb_false_r.
    + eexists. split; [apply check_required_files_run|].
      unfold missing_under. apply list_elem_of_filter. split; [|done].
      rewrite Hstat. eauto.
Qed.

Lemma checks_never_raise_witness :
  os_path_exists "models/det.onnx" permission_denied_process
    = (Return false, permission_denied_process) /\
  exists missing,
    check_required_files permission_denied_process
      = (Return missing, permission_denied_process) /\
    "models/det.onnx" ∈ missing.
Proof.
  apply (proj2 (proj2 (proj2 checks_never_raise))
           permission_denied_process "models/det.onnx" 13).
  - apply list_elem_of_lookup_2 with 0%nat. reflexivity.
  - reflexivity.
Defined.

(** C5. Two calls of [check_required_files] in a row return the same list
    and leave the process state as it was.  Nothing is remembered from one
    call to the next: when the environment changes between the calls, the
    second call answers for the new environment. *)
Theorem check_required_files_repeatable :
  (forall w, exists missing,
     (a ← check_required_files; b ← check_required_files; mret (a, b)) w
       = (Return (missing, missing), w)) /\
  (forall w w',
     (a ← check_required_files; _ ← environment_becomes w';
      b ← check_required_files; mret (a, b)) w
       = (Return (missing_under (stat_errno w) (cwd w),
                  missing_under (stat_errno w') (cwd w')), w')).
Proof.
  split.
  - intros w. exists (missing_under (stat_errno w) (cwd w)).
    unfold mbind, Py_bind. by rewrite !check_required_files_run.
  - intros w w'. unfold mbind, Py_bind.
    rewrite check_required_files_run. unfold environment_becomes.
    by rewrite check_required_files_run.
Qed.

(** C9. The list returned by [check_required_files] holds only paths of the
    four-element [REQUIRED_FILES], in the declared order and without
    repetition: it is a sublist of [REQUIRED_FILES].  [validate_config]
    returns at most two messages. *)
Theorem check_required_files_sublist (w : process) :
  length REQUIRED_FILES = 4%nat /\
  (exists missing,
     check_required_files w = (Return missing, w) /\
     (forall p, p ∈ missing -> p ∈ REQUIRED_FILES) /\
     missing `sublist_of` REQUIRED_FILES /\
     NoDup missing) /\
  (forall port, exists errors,
     validate_config_with port w = (Return errors, w) /\
     (length errors <= 2)%nat) /\
  (exists errors,
     validate_config w = (Return errors, w) /\ (length errors <= 2)%nat).
Proof.
  assert (Hsub : missing_under (stat_errno w) (cwd w)
                   `sublist_of` REQUIRED_FILES) by apply sublist_filter.
  assert (Hnd : NoDup REQUIRED_FILES).
  { compute_done. }
  assert (Hlen : forall port, exists errors,
            validate_config_with port w = (Return errors, w) /\
            (length errors <= 2)%nat).
  { intros port. eexists. split; [apply validate_config_with_run|].
    rewrite length_app.
    destruct ((1024 <=? port) && (port <=? 65535));
      destruct (missing_under _ _); cbn; lia. }
  split; [done|]. split; [|split; [exact Hlen | apply Hlen]].
  exists (missing_under (stat_errno w) (cwd w)).
  split; [apply check_required_files_run|]. split; [|split].
  - intros p Hp. by eapply elem_of_sublist.
  - exact Hsub.
  - by eapply sublist_NoDup.
Qed.

(** ** Snapshot *)

Lemma bind_load_global {B : Type} (name : string) (v : pyref)
    (k : pyref -> Interp B) (m : module_state) :
  globals m !! name = Some v -> (x ← load_global name; k x) m = k v m.
Proof.
  intros H. unfold mbind, Interp_bind, load_global. by rewrite H.
Qed.

Lemma bind_load_global_unbound {B : Type} (name : string)
    (k : pyref -> Interp B) (m : module_state) :
  globals m !! name = None ->
  (x ← load_global name; k x) m = (Raise (NameError name), m).
Proof.
  intros H. unfold mbind, Interp_bind, load_global. by rewrite H.
Qed.

(** [get_config_info] changes nothing, whether it returns or raises. *)
Lemma get_config_info_state (m : module_state) : snd (get_config_info m) = m.
Proof.
  unfold get_config_info.
  repeat lazymatch goal with
  | |- snd ((x ← load_global ?name; _) m) = m =>
      destruct (globals m !! name) as [?|] eqn:?;
      [ erewrite bind_load_global by eassumption
      | by erewrite bind_load_global_unbound by eassumption ]
  end.
  reflexivity.
Qed.

(** The snapshot of the loaded module, whatever port the global holds. *)
Lemma get_config_info_with_port_run (port : Z) :
  (info ← get_config_info; deep_read info) (loaded_with_port port)
    = (Return (config_info_for port), loaded_with_port port).
Proof. reflexivity. Qed.




(** * Further properties of the module *)

(** ** More on strings *)

Lemma isabs_cons (c : ascii) (s : string) :
  os_path.isabs (String c s) = Ascii.eqb c "/".
Proof.
  unfold os_path.isabs, PyStr.startswith, os_path.sep.
  change (String.prefix "/" (String c s))
    with (if ascii_dec "/" c then String.prefix "" s else false).
  destruct (ascii_dec "/" c) as [<-|Hne].
  - by destruct s.
  - symmetry. apply Ascii.eqb_neq. congruence.
Qed.

Lemma isabs_app (a b : string) :
  os_path.isabs a = true -> os_path.isabs (a +:+ b) = true.
Proof.
  destruct a as [|c a]; [discriminate|].
  change (String c a +:+ b) with (String c (a +:+ b)).
  by rewrite !isabs_cons.
Qed.

Lemma with_sep_isabs (root : string) :
  os_path.isabs root = true -> os_path.isabs (with_sep root) = true.
Proof.
  intros H. unfold with_sep.
  destruct (String.eqb root "" || PyStr.endswith root os_path.sep);
    [done | by apply isabs_app].
Qed.

Lemma startswith_app (a b : string) : PyStr.startswith (a +:+ b) a = true.
Proof.
  unfold PyStr.startswith. induction a as [|c a IH]; [by destruct b|].
  change (String.prefix (String c a) (String c a +:+ b))
    with (if ascii_dec c c then String.prefix a (a +:+ b) else false).
  by destruct (ascii_dec c c).
Qed.

Lemma get_test_image_path_abs (root filename : string) :
  os_path.isabs filename = true -> get_test_image_path root filename = filename.
Proof.
  intros Habs. unfold get_test_image_path, os_path.join. cbn [fold_left].
  unfold os_path.join_step at 1. unfold os_path.isabs in Habs.
  by rewrite Habs.
Qed.

(** ** Test image paths for arbitrary file names *)

(** X1. What [get_test_image_path] returns for every file name: an absolute
    name comes back as it is; any other name, the empty one included, is
    appended to the test-images directory under the root, whatever
    sub-directories or dots it contains. *)
Theorem get_test_image_path_cases (root filename : string) :
  get_test_image_path root filename =
    (if os_path.isabs filename then filename
     else with_sep root +:+ "assets/images/" +:+ filename) /\
  get_test_image_path root "" = with_sep root +:+ "assets/images/".
Proof.
  split.
  - destruct (os_path.isabs filename) eqn:Habs.
    + by apply get_test_image_path_abs.
    + by rewrite get_test_image_path_relative.
  - by rewrite get_test_image_path_relative.
Qed.

(** X2. With an absolute project root, [get_test_image_path] is idempotent:
    a path it returned is returned unchanged when passed in again. *)
Theorem get_test_image_path_idempotent (root filename : string) :
  os_path.isabs root = true ->
  get_test_image_path root (get_test_image_path root filename)
    = get_test_image_path root filename.
Proof.
  intros Hroot. apply get_test_image_path_abs.
  destruct (os_path.isabs filename) eqn:Habs.
  - by rewrite get_test_image_path_abs.
  - rewrite get_test_image_path_relative by done.
    by apply isabs_app, with_sep_isabs.
Qed.

Lemma get_test_image_path_idempotent_witness :
  get_test_image_path "/srv/ocr/src/utils"
    (get_test_image_path "/srv/ocr/src/utils" "scans/7.png")
  = get_test_image_path "/srv/ocr/src/utils" "scans/7.png".
Proof.
  apply (get_test_image_path_idempotent "/srv/ocr/src/utils" "scans/7.png").
  reflexivity.
Defined.

(** X3. Different relative file names give different paths. *)
Theorem get_test_image_path_injective (root f1 f2 : string) :
  os_path.isabs f1 = false -> os_path.isabs f2 = false -> f1 <> f2 ->
  get_test_image_path root f1 <> get_test_image_path root f2.
Proof.
  intros H1 H2 Hne. rewrite !get_test_image_path_relative by done.
  intros Heq. apply Hne. apply String.app_inj in Heq.
  apply String.app_inj in Heq. by apply String.app_inj in Heq.
Qed.

Lemma get_test_image_path_injective_witness :
  get_test_image_path "/srv" "1.jpg" <> get_test_image_path "/srv" "a/../1.jpg".
Proof.
  apply (get_test_image_path_injective "/srv" "1.jpg" "a/../1.jpg");
    [reflexivity | reflexivity | discriminate].
Defined.

(** X4. The paths of [get_test_images] are pairwise different, all lie in
    the test-images directory under the root, and are absolute when the root
    is. *)
Theorem get_test_images_distinct (root : string) :
  NoDup (get_test_images root) /\
  Forall (fun p =>
            PyStr.startswith p (with_sep root +:+ "assets/images/") = true)
         (get_test_images root) /\
  (os_path.isabs root = true ->
   Forall (fun p => os_path.isabs p = true) (get_test_images root)).
Proof.
  unfold get_test_images. rewrite list_comp_fmap.
  split; [|split].
  - apply NoDup_fmap_2_strong; [|compute_done].
    intros f1 f2 H1%TEST_IMAGES_relative H2%TEST_IMAGES_relative Heq.
    rewrite !get_test_image_path_relative in Heq by done.
    do 3 apply String.app_inj in Heq. done.
  - apply Forall_fmap, Forall_forall. intros f Hf%TEST_IMAGES_relative.
    unfold compose. rewrite get_test_image_path_relative by done.
    change (with_sep root +:+ TEST_IMAGES_DIR +:+ "/" +:+ f)
      with (with_sep root +:+ "assets/images/" +:+ f).
    rewrite <- string_app_assoc. apply startswith_app.
  - intros Hroot. apply Forall_fmap, Forall_forall.
    intros f Hf%TEST_IMAGES_relative. unfold compose.
    rewrite get_test_image_path_relative by done.
    by apply isabs_app, with_sep_isabs.
Qed.

(** ** Directory names *)

Lemma has_char_sep_cons (c : ascii) (s : string) :
  PyStr.has_char (String c s) "/" = false ->
  Ascii.eqb c "/" = false /\ PyStr.has_char s "/" = false.
Proof. cbn. by intros [? ?]%orb_false_elim. Qed.

Lemma isabs_no_sep (s : string) :
  PyStr.has_char s "/" = false -> os_path.isabs s = false.
Proof.
  destruct s as [|c s]; [done|]. intros [Hc _]%has_char_sep_cons.
  by rewrite isabs_cons.
Qed.

Lemma rfind_no_sep (s : string) :
  PyStr.has_char s "/" = false -> PyStr.rfind s "/" = -1.
Proof.
  induction s as [|c s IH]; [done|]. intros [Hc Hs]%has_char_sep_cons.
  cbn [PyStr.rfind]. rewrite (IH Hs). cbn [Z.leb Z.compare].
  change (String.prefix "/" (String c s)) with (os_path.isabs (String c s)).
  by rewrite isabs_cons, Hc.
Qed.

Lemma rfind_last_sep (a base : string) :
  PyStr.has_char base "/" = false ->
  PyStr.rfind (a +:+ "/" +:+ base) "/" = Z.of_nat (String.length a).
Proof.
  intros Hbase. induction a as [|c a IH].
  - change ("" +:+ "/" +:+ base) with (String "/" base).
    cbn [PyStr.rfind]. rewrite (rfind_no_sep _ Hbase). cbn [Z.leb Z.compare].
    change (String.prefix "/" (String "/" base))
      with (os_path.isabs (String "/" base)).
    by rewrite isabs_cons.
  - change (String c a +:+ "/" +:+ base) with (String c (a +:+ "/" +:+ base)).
    cbn [PyStr.rfind]. rewrite IH.
    destruct (Z.leb_spec 0 (Z.of_nat (String.length a))); [|lia].
    cbn [String.length]. lia.
Qed.

Lemma substring_app_l (a b : string) (n : nat) :
  substring 0 (String.length a + n) (a +:+ b) = a +:+ substring 0 n b.
Proof.
  induction a as [|c a IH]; [done|].
  change (String c a +:+ b) with (String c (a +:+ b)).
  cbn [String.length Nat.add substring]. by rewrite IH.
Qed.

Lemma slice_to_head (a base : string) :
  PyStr.slice_to (a +:+ "/" +:+ base) (Z.of_nat (String.length a) + 1)
    = a +:+ "/".
Proof.
  unfold PyStr.slice_to.
  destruct (Z.ltb_spec (Z.of_nat (String.length a) + 1) 0); [lia|].
  replace (Z.to_nat (Z.of_nat (String.length a) + 1))
    with (String.length a + 1)%nat by lia.
  rewrite substring_app_l. by destruct base.
Qed.

Lemma rstrip_app_sep (a : string) :
  PyStr.rstrip (a +:+ "/") "/" = PyStr.rstrip a "/".
Proof.
  induction a as [|c a IH]; [done|].
  change (String c a +:+ "/") with (String c (a +:+ "/")).
  cbn [PyStr.rstrip]. by rewrite IH.
Qed.

Lemma rstrip_app_keep (a b chars : string) :
  b <> "" -> PyStr.rstrip b chars = b ->
  PyStr.rstrip (a +:+ b) chars = a +:+ b.
Proof.
  intros Hne Hb. induction a as [|c a IH]; [done|].
  change (String c a +:+ b) with (String c (a +:+ b)).
  cbn [PyStr.rstrip]. rewrite IH. by rewrite app_nonempty_r.
Qed.

Lemma rstrip_no_sep (s : string) :
  PyStr.has_char s "/" = false -> PyStr.rstrip s "/" = s.
Proof.
  induction s as [|c s IH]; [done|]. intros [Hc Hs]%has_char_sep_cons.
  cbn [PyStr.rstrip PyStr.has_char]. rewrite (IH Hs).
  rewrite (eqb_sym "/" c), Hc. cbn [orb]. by rewrite andb_false_r.
Qed.

Lemma rstrip_repeat_sep (n : nat) :
  PyStr.rstrip (PyStr.repeat "/" n) "/" = "".
Proof.
  induction n as [|n IH]; [done|].
  change (PyStr.repeat "/" (S n)) with (String "/" (PyStr.repeat "/" n)).
  cbn [PyStr.rstrip]. by rewrite IH.
Qed.

Lemma not_repeat_sep (s : string) (n : nat) :
  PyStr.rstrip s "/" <> "" -> String.eqb s (PyStr.repeat "/" n) = false.
Proof.
  intros Hne. apply String.eqb_neq. intros ->.
  by rewrite rstrip_repeat_sep in Hne.
Qed.

(** [dirname] of a path whose last component is [base]. *)
Lemma dirname_app (dir base : string) :
  PyStr.has_char base "/" = false ->
  os_path.dirname (dir +:+ "/" +:+ base) =
    if String.eqb (dir +:+ "/")
         (PyStr.repeat "/" (String.length (dir +:+ "/")))
    then dir +:+ "/" else PyStr.rstrip dir "/".
Proof.
  intros Hbase. unfold os_path.dirname, os_path.sep.
  rewrite (rfind_last_sep _ _ Hbase), slice_to_head.
  rewrite app_nonempty_r by done. cbn [negb andb].
  destruct (String.eqb _ _); [done|]. cbn [negb]. apply rstrip_app_sep.
Qed.

(** X5. For a file name without a separator, the directory name of the path
    [get_test_image_path] returns is the test-images directory under the
    root: [dirname] undoes the last step of the join. *)
Theorem dirname_get_test_image_path (root filename : string) :
  PyStr.has_char filename "/" = false ->
  os_path.dirname (get_test_image_path root filename)
    = with_sep root +:+ "assets/images".
Proof.
  intros Hname.
  rewrite get_test_image_path_relative by by apply isabs_no_sep.
  rewrite <- string_app_assoc.
  assert (Hkeep : PyStr.rstrip (with_sep root +:+ TEST_IMAGES_DIR) "/"
                  = with_sep root +:+ TEST_IMAGES_DIR)
    by by apply rstrip_app_keep.
  rewrite (dirname_app _ _ Hname), not_repeat_sep; [exact Hkeep|].
  rewrite rstrip_app_sep, Hkeep. intros H.
  apply (f_equal (fun s => String.eqb s "")) in H.
  by rewrite app_nonempty_r in H.
Qed.

Lemma dirname_get_test_image_path_witness :
  os_path.dirname (get_test_image_path "/srv/ocr/src/utils" "12.jpg")
    = "/srv/ocr/src/utils/assets/images".
Proof.
  apply (dirname_get_test_image_path "/srv/ocr/src/utils" "12.jpg").
  reflexivity.
Defined.

(** ** The project root *)

Lemma normpath_isabs (p : string) :
  os_path.isabs p = true -> os_path.isabs (os_path.normpath p) = true.
Proof.
  destruct p as [|c s]; [discriminate|]. intros Habs.
  unfold os_path.normpath.
  change (String.eqb (String c s) "") with false. cbv iota.
  change (PyStr.startswith (String c s) os_path.sep)
    with (os_path.isabs (String c s)). rewrite Habs.
  destruct (_ && _); cbn [Nat.eqb];
    set (joined := PyStr.join _ _).
  - change (PyStr.repeat os_path.sep 2 +:+ joined)
      with (String "/" (String "/" joined)).
    change (String.eqb (String "/" (String "/" joined)) "") with false.
    cbv iota. by rewrite isabs_cons.
  - change (PyStr.repeat os_path.sep 1 +:+ joined)
      with (String "/" joined).
    change (String.eqb (String "/" joined) "") with false.
    cbv iota. by rewrite isabs_cons.
Qed.

Lemma rfind_isabs (p : string) :
  os_path.isabs p = true -> 0 <= PyStr.rfind p "/".
Proof.
  destruct p as [|c s]; [discriminate|]. intros Habs.
  cbn [PyStr.rfind].
  destruct (Z.leb_spec 0 (PyStr.rfind s "/")); [lia|].
  change (String.prefix "/" (String c s)) with (os_path.isabs (String c s)).
  by rewrite Habs.
Qed.

Lemma rstrip_empty_repeat (s : string) :
  PyStr.rstrip s "/" = "" -> s = PyStr.repeat "/" (String.length s).
Proof.
  induction s as [|c s IH]; [done|]. cbn [PyStr.rstrip PyStr.has_char].
  destruct (String.eqb (PyStr.rstrip s "/") "") eqn:Ht; [|done].
  rewrite orb_false_r. destruct (Ascii.eqb_spec "/" c) as [<-|]; [|done].
  intros _. apply String.eqb_eq in Ht. cbn [String.length PyStr.repeat].
  by rewrite <- (IH Ht).
Qed.

Lemma dirname_isabs (p : string) :
  os_path.isabs p = true -> os_path.isabs (os_path.dirname p) = true.
Proof.
  intros Habs. pose proof (rfind_isabs _ Habs) as Hge.
  destruct p as [|c s]; [discriminate|].
  rewrite isabs_cons in Habs. apply Ascii.eqb_eq in Habs as ->.
  unfold os_path.dirname, os_path.sep, PyStr.slice_to.
  destruct (Z.ltb_spec (PyStr.rfind (String "/" s) "/" + 1) 0); [lia|].
  destruct (Z.to_nat (PyStr.rfind (String "/" s) "/" + 1)) as [|n] eqn:Hn;
    [lia|].
  cbn [substring]. set (h := substring 0 n s).
  change (String.eqb (String "/" h) "") with false. cbn [negb andb].
  destruct (String.eqb _ _) eqn:Hall; cbn [negb]; [by rewrite isabs_cons|].
  cbn [PyStr.rstrip PyStr.has_char].
  destruct (String.eqb (PyStr.rstrip h "/") "") eqn:Ht;
    [|cbn [andb]; by rewrite isabs_cons].
  apply String.eqb_eq, rstrip_empty_repeat in Ht.
  apply String.eqb_neq in Hall. exfalso. apply Hall.
  cbn [String.length PyStr.repeat]. by rewrite <- Ht.
Qed.

Lemma os_path_abspath_run (path : string) (w : process) :
  os_path_abspath path w =
    (Return (os_path.normpath
               (if os_path.isabs path then path
                else os_path.join (cwd w) [path])), w).
Proof. unfold os_path_abspath. by destruct (os_path.isabs path). Qed.

(** X6. Loaded from any module file, by a process whose working directory
    is absolute (or from a file given by an absolute path), the module gets
    an absolute [PROJECT_ROOT]; every path [get_test_image_path] then
    returns is absolute, so it does not depend on the working directory at
    the time of the call. *)
Theorem PROJECT_ROOT_absolute (module_file : string) (w : process) :
  os_path.isabs module_file = true \/ os_path.isabs (cwd w) = true ->
  exists root,
    PROJECT_ROOT module_file w = (Return root, w) /\
    os_path.isabs root = true /\
    forall filename,
      os_path.isabs (get_test_image_path root filename) = true.
Proof.
  intros Habs. eexists. split; [|split].
  - unfold PROJECT_ROOT, mbind, Py_bind. by rewrite os_path_abspath_run.
  - apply dirname_isabs, normpath_isabs.
    destruct (os_path.isabs module_file) eqn:Hfile; [done|].
    destruct Habs as [|Hcwd]; [done|].
    rewrite join_relative by done. by apply isabs_app, with_sep_isabs.
  - assert (Hroot : forall root, os_path.isabs root = true ->
              forall filename,
                os_path.isabs (get_test_image_path root filename) = true).
    { intros root Hroot filename.
      destruct (os_path.isabs filename) eqn:Hf.
      - by rewrite get_test_image_path_abs.
      - rewrite get_test_image_path_relative by done.
        by apply isabs_app, with_sep_isabs. }
    apply Hroot, dirname_isabs, normpath_isabs.
    destruct (os_path.isabs module_file) eqn:Hfile; [done|].
    destruct Habs as [|Hcwd]; [done|].
    rewrite join_relative by done. by apply isabs_app, with_sep_isabs.
Qed.

Lemma PROJECT_ROOT_absolute_witness :
  exists root,
    PROJECT_ROOT "src/utils/../utils/config.py"
      (Process (fun _ => None) "/home/ocr/")
    = (Return root, Process (fun _ => None) "/home/ocr/") /\
    os_path.isabs root = true /\
    forall filename,
      os_path.isabs (get_test_image_path root filename) = true.
Proof.
  apply (PROJECT_ROOT_absolute "src/utils/../utils/config.py"
           (Process (fun _ => None) "/home/ocr/")).
  right. reflexivity.
Defined.

Lemma split_no_sep (s : string) :
  PyStr.has_char s "/" = false -> PyStr.split s "/" = [s].
Proof.
  induction s as [|c s IH]; [done|]. intros [Hc Hs]%has_char_sep_cons.
  cbn [PyStr.split]. by rewrite Hc, (IH Hs).
Qed.

Lemma split_app_sep (a rest : string) :
  PyStr.has_char a "/" = false ->
  PyStr.split (a +:+ "/" +:+ rest) "/" = a :: PyStr.split rest "/".
Proof.
  induction a as [|c a IH]; [done|]. intros [Hc Ha]%has_char_sep_cons.
  change (String c a +:+ "/" +:+ rest) with (String c (a +:+ "/" +:+ rest)).
  cbn [PyStr.split]. by rewrite Hc, (IH Ha).
Qed.

Lemma concat_cons_cons (sep x y : string) (l : list string) :
  String.concat sep (x :: y :: l) = x +:+ sep +:+ String.concat sep (y :: l).
Proof. reflexivity. Qed.

Lemma split_concat (comps : list string) :
  comps <> [] ->
  Forall (fun c => PyStr.has_char c "/" = false) comps ->
  PyStr.split (String.concat "/" comps) "/" = comps.
Proof.
  intros Hne Hall. induction Hall as [|x l Hx Hl IH]; [done|].
  destruct l as [|y l]; [by apply split_no_sep|].
  rewrite concat_cons_cons, (split_app_sep _ _ Hx), IH; done.
Qed.

Lemma concat_snoc (sep b : string) (l : list string) :
  l <> [] ->
  String.concat sep (l ++ [b]) = String.concat sep l +:+ sep +:+ b.
Proof.
  intros Hne. induction l as [|x l IH]; [done|].
  destruct l as [|y l]; [done|].
  change ((x :: y :: l) ++ [b]) with (x :: y :: (l ++ [b])).
  rewrite !concat_cons_cons.
  change (y :: l ++ [b]) with ((y :: l) ++ [b]).
  rewrite IH by done. by rewrite !string_app_assoc.
Qed.

Lemma normpath_step_plain (k : nat) (acc : list string) (c : string) :
  plain_name c -> os_path.normpath_step k acc c = acc ++ [c].
Proof.
  intros (H0 & H1 & H2 & _). unfold os_path.normpath_step.
  apply String.eqb_neq in H0, H1, H2. by rewrite H0, H1, H2.
Qed.

Lemma fold_normpath_plain (k : nat) (comps acc : list string) :
  Forall plain_name comps ->
  fold_left (os_path.normpath_step k) comps acc = acc ++ comps.
Proof.
  intros Hall. revert acc.
  induction Hall as [|c l Hc _ IH]; intros acc; cbn [fold_left].
  - by rewrite app_nil_r.
  - by rewrite (normpath_step_plain _ _ _ Hc), IH, <- app_assoc.
Qed.

Lemma plain_name_no_sep (comps : list string) :
  Forall plain_name comps ->
  Forall (fun c => PyStr.has_char c "/" = false) comps.
Proof.
  intros Hall. eapply Forall_impl; [exact Hall|]. by intros c (_ & _ & _ & H).
Qed.

(** An absolute path made of plain components is in normal form. *)
Lemma normpath_plain (comps : list string) :
  comps <> [] -> Forall plain_name comps ->
  os_path.normpath ("/" +:+ String.concat "/" comps)
    = "/" +:+ String.concat "/" comps.
Proof.
  intros Hne Hall. unfold os_path.normpath.
  change ("/" +:+ String.concat "/" comps)
    with (String "/" (String.concat "/" comps)).
  change (String.eqb (String "/" (String.concat "/" comps)) "") with false.
  cbv iota.
  change (PyStr.startswith (String "/" (String.concat "/" comps)) os_path.sep)
    with (os_path.isabs (String "/" (String.concat "/" comps))).
  rewrite isabs_cons. cbn [Ascii.eqb Bool.eqb]. cbv iota.
  assert (Hdouble :
    PyStr.startswith (String "/" (String.concat "/" comps))
                     (PyStr.repeat os_path.sep 2) = false).
  { destruct Hall as [|c l (Hc & _ & _ & Hsep) _]; [done|].
    destruct c as [|x c]; [done|].
    apply has_char_sep_cons in Hsep as [Hx _].
    assert (Hhead : exists rest, String.concat "/" (String x c :: l)
                                 = String x rest).
    { destruct l; [by eexists | rewrite concat_cons_cons; by eexists]. }
    destruct Hhead as [rest ->].
    change (PyStr.startswith (String "/" (String x rest))
              (PyStr.repeat os_path.sep 2))
      with (if ascii_dec "/" "/" then os_path.isabs (String x rest)
            else false).
    destruct (ascii_dec "/" "/"); [|done]. by rewrite isabs_cons. }
  rewrite Hdouble. cbn [andb]. cbv iota.
  cbn [PyStr.split Ascii.eqb Bool.eqb]. cbv iota.
  rewrite split_concat by (done || by apply plain_name_no_sep).
  cbn [fold_left].
  change (os_path.normpath_step 1 [] "") with (@nil string).
  rewrite fold_normpath_plain by done. cbn [app Nat.eqb]. cbv iota.
  unfold PyStr.join.
  change (PyStr.repeat os_path.sep 1 +:+ String.concat os_path.sep comps)
    with (String "/" (String.concat "/" comps)).
  reflexivity.
Qed.

Lemma endswith_no_sep (d : string) :
  PyStr.has_char d "/" = false -> PyStr.endswith d "/" = false.
Proof.
  induction d as [|c d IH]; [done|]. intros [Hc Hd]%has_char_sep_cons.
  cbn [PyStr.endswith]. rewrite (IH Hd), orb_false_r.
  apply String.eqb_neq. intros [= -> _]. done.
Qed.

(** A non-empty list of plain components ends in a plain component. *)
Lemma concat_plain_last (dirs : list string) :
  dirs <> [] -> Forall plain_name dirs ->
  exists a d, plain_name d /\
    forall pre, pre +:+ String.concat "/" dirs = (pre +:+ a) +:+ d.
Proof.
  intros Hne Hall. destruct dirs as [|x l] using rev_ind; [done|].
  clear IHl. apply Forall_app in Hall as [Hl Hx].
  apply Forall_cons_1 in Hx as [Hx _].
  destruct l as [|y l].
  - exists "", x. split; [done|]. intros pre. cbn [app String.concat].
    by rewrite string_app_assoc.
  - exists (String.concat "/" (y :: l) +:+ "/"), x. split; [done|].
    intros pre. rewrite concat_snoc by done.
    by rewrite !string_app_assoc.
Qed.

Lemma root_of_plain (pre : string) (dirs : list string) :
  dirs <> [] -> Forall plain_name dirs ->
  let root := pre +:+ String.concat "/" dirs in
  PyStr.rstrip root "/" = root /\ PyStr.endswith root "/" = false /\
  root <> "".
Proof.
  intros Hne Hall root.
  destruct (concat_plain_last dirs Hne Hall)
    as (a & d & (Hd0 & _ & _ & Hdsep) & Heq).
  subst root. rewrite Heq. split; [|split].
  - apply rstrip_app_keep; [done | by apply rstrip_no_sep].
  - rewrite endswith_app; [by apply endswith_no_sep|].
    destruct d; [done | cbn; lia].
  - intros H. apply (f_equal (fun s => String.eqb s "")) in H.
    by rewrite app_nonempty_r in H.
Qed.

(** X7. When the module file is [/d1/.../dn/config.py], with plain
    directory and file names, [PROJECT_ROOT] is the directory [/d1/.../dn]
    that holds the module file ([/] when there is no directory), and a
    relative test-image name resolves to
    [/d1/.../dn/assets/images/name]. *)
Theorem PROJECT_ROOT_of_module_file (dirs : list string) (base : string)
    (w : process) :
  Forall plain_name dirs -> plain_name base ->
  PROJECT_ROOT ("/" +:+ String.concat "/" (dirs ++ [base])) w
    = (Return ("/" +:+ String.concat "/" dirs), w) /\
  forall name,
    os_path.isabs name = false ->
    get_test_image_path ("/" +:+ String.concat "/" dirs) name
      = "/" +:+ String.concat "/" (dirs ++ ["assets/images"; name]).
Proof.
  intros Hdirs Hbase. split.
  - unfold PROJECT_ROOT, mbind, Py_bind. rewrite os_path_abspath_run.
    change (os_path.isabs ("/" +:+ String.concat "/" (dirs ++ [base])))
      with (os_path.isabs (String "/" (String.concat "/" (dirs ++ [base])))).
    rewrite isabs_cons. cbn [Ascii.eqb Bool.eqb]. cbv iota.
    rewrite normpath_plain;
      [| by destruct dirs | apply Forall_app; split; [done | by constructor]].
    unfold mret, Py_ret. f_equal. f_equal.
    destruct Hbase as (_ & _ & _ & Hbase).
    destruct (decide (dirs = [])) as [->|Hne].
    + change ("/" +:+ String.concat "/" ([] ++ [base]))
        with ("" +:+ "/" +:+ base).
      by rewrite (dirname_app _ _ Hbase).
    + rewrite concat_snoc by done. rewrite <- string_app_assoc.
      destruct (root_of_plain "/" dirs Hne Hdirs) as (Hstrip & _ & Hnz).
      cbv zeta in Hstrip, Hnz.
      rewrite (dirname_app _ _ Hbase), not_repeat_sep; [done|].
      by rewrite rstrip_app_sep, Hstrip.
  - intros name Hname. rewrite get_test_image_path_relative by done.
    destruct (decide (dirs = [])) as [->|Hne]; [reflexivity|].
    destruct (root_of_plain "/" dirs Hne Hdirs) as (_ & Hends & Hnz).
    cbv zeta in Hends, Hnz. unfold with_sep, os_path.sep.
    rewrite Hends. apply String.eqb_neq in Hnz. rewrite Hnz. cbn [orb].
    change (dirs ++ ["assets/images"; name])
      with (dirs ++ ["assets/images"] ++ [name]).
    rewrite app_assoc, concat_snoc by by destruct dirs.
    rewrite concat_snoc by done.
    by rewrite !string_app_assoc.
Qed.

Lemma PROJECT_ROOT_of_module_file_witness :
  PROJECT_ROOT "/srv/ocr/src/utils/config.py" sample_process
    = (Return "/srv/ocr/src/utils", sample_process) /\
  forall name,
    os_path.isabs name = false ->
    get_test_image_path "/srv/ocr/src/utils" name
      = "/" +:+ String.concat "/"
                  (["srv"; "ocr"; "src"; "utils"]
                   ++ ["assets/images"; name]).
Proof.
  apply (PROJECT_ROOT_of_module_file ["srv"; "ocr"; "src"; "utils"]
           "config.py" sample_process).
  - repeat constructor; discriminate.
  - repeat constructor; discriminate.
Defined.

(** ** More on endpoint URLs *)

Lemma ENDPOINTS_lookup_Some (key path : string) :
  ENDPOINTS !! key = Some path ->
  (key = "ocr" /\ path = "/ocr") \/
  (key = "health" /\ path = "/health") \/
  (key = "info" /\ path = "/").
Proof.
  unfold ENDPOINTS. rewrite !lookup_insert_Some, lookup_empty.
  intros [[<- <-]|[_ [[<- <-]|[_ [[<- <-]|[_ ?]]]]]]; auto. done.
Qed.

(** X8. The mapped path of an endpoint can be passed in place of its key:
    it is not itself a key, falls through to the literal branch, and gives
    the same URL. *)
Theorem get_api_url_path_as_key (key path : string) :
  ENDPOINTS !! key = Some path -> get_api_url path = get_api_url key.
Proof.
  intros [[-> ->]|[[-> ->]|[-> ->]]]%ENDPOINTS_lookup_Some; reflexivity.
Qed.

Lemma get_api_url_path_as_key_witness :
  get_api_url "/" = get_api_url "info".
Proof.
  apply (get_api_url_path_as_key "info" "/"). reflexivity.
Defined.

(** X9. Two different arguments of [get_api_url] give the same URL only
    when one of them is the mapped path of the other. *)
Theorem get_api_url_collisions (k1 k2 : string) :
  get_api_url k1 = get_api_url k2 ->
  k1 = k2 \/ ENDPOINTS !! k1 = Some k2 \/ ENDPOINTS !! k2 = Some k1.
Proof.
  unfold get_api_url. intros Heq%String.app_inj.
  destruct (ENDPOINTS !! k1) as [p1|] eqn:H1;
    destruct (ENDPOINTS !! k2) as [p2|] eqn:H2; cbn in Heq; subst; auto.
  left.
  apply ENDPOINTS_lookup_Some in H1 as [[-> ?]|[[-> ?]|[-> ?]]];
    apply ENDPOINTS_lookup_Some in H2 as [[-> ?]|[[-> ?]|[-> ?]]];
    congruence.
Qed.

Lemma get_api_url_collisions_witness :
  "/health" = "health" \/
  ENDPOINTS !! "/health" = Some "health" \/
  ENDPOINTS !! "health" = Some "/health".
Proof.
  apply (get_api_url_collisions "/health" "health"). reflexivity.
Defined.

(** ** More on validation *)

(** X10. [validate_config] returns the empty list exactly when the port is
    in range and each of the four required files passes the existence
    check; with the module's port 8080, exactly when the files do. *)
Theorem validate_config_empty_iff (port : Z) (w : process) :
  let all_exist :=
    Forall (fun p => stat_errno w (os_path.join (cwd w) [p]) = None)
           REQUIRED_FILES in
  (validate_config_with port w = (Return [], w) <->
     1024 <= port <= 65535 /\ all_exist) /\
  (validate_config w = (Return [], w) <-> all_exist).
Proof.
  intros all_exist.
  assert (Hgen : forall port,
    validate_config_with port w = (Return [], w) <->
    (1024 <=? port) && (port <=? 65535) = true /\ all_exist).
  { intros q. rewrite validate_config_with_run.
    unfold all_exist. rewrite <- missing_under_nil.
    destruct ((1024 <=? q) && (q <=? 65535));
      destruct (missing_under _ _); split; try done; by intros [? ?]. }
  split.
  - rewrite Hgen, andb_true_iff, !Z.leb_le. tauto.
  - unfold validate_config. rewrite Hgen.
    change ((1024 <=? SERVER_PORT) && (SERVER_PORT <=? 65535)) with true.
    tauto.
Qed.

(** X11. A path is in the list returned by [check_required_files] exactly
    when it is one of the required files and its existence check, made
    relative to the working directory, fails: an existing file is never
    reported and a missing one never left out. *)
Theorem check_required_files_member_iff (w : process) (p : string) :
  exists missing,
    check_required_files w = (Return missing, w) /\
    (p ∈ missing <->
     p ∈ REQUIRED_FILES /\
     is_Some (stat_errno w (with_sep (cwd w) +:+ p))).
Proof.
  eexists. split; [apply check_required_files_run|].
  unfold missing_under. rewrite list_elem_of_filter.
  split; intros [Hstat Hin]; split; try done.
  - rewrite <- join_relative; [done|].
    by eapply Forall_forall in Hin; [|apply REQUIRED_FILES_relative].
  - rewrite join_relative; [done|].
    by eapply Forall_forall in Hstat; [|apply REQUIRED_FILES_relative].
Qed.

(** X12. The result of [check_required_files], and with it that of
    [validate_config], depends on the process only through whether the
    existence check of each of the four resolved paths succeeds: neither
    other paths of the filesystem nor the error number of a failed check
    matter. *)
Theorem check_required_files_reads_four_paths (w1 w2 : process) :
  Forall (fun p =>
            is_Some (stat_errno w1 (os_path.join (cwd w1) [p])) <->
            is_Some (stat_errno w2 (os_path.join (cwd w2) [p])))
         REQUIRED_FILES ->
  fst (check_required_files w1) = fst (check_required_files w2) /\
  forall port,
    fst (validate_config_with port w1) = fst (validate_config_with port w2).
Proof.
  intros Hagree.
  assert (Hsame : missing_under (stat_errno w1) (cwd w1)
                  = missing_under (stat_errno w2) (cwd w2))
    by by apply filter_ext_Forall.
  split.
  - rewrite !check_required_files_run. cbn [fst]. by rewrite Hsame.
  - intros port. rewrite !validate_config_with_run. cbn [fst].
    by rewrite Hsame.
Qed.

Lemma check_required_files_reads_four_paths_witness :
  fst (check_required_files sample_process)
    = fst (check_required_files
             (Process
                (fun p =>
                   if String.eqb p "/mnt/models/rec.onnx" then Some 13
                   else if String.eqb p "/mnt/assets/fonts/simfang.ttf"
                        then Some 20
                   else if String.eqb p "/mnt/README.md" then Some 2
                   else None)
                "/mnt")) /\
  forall port,
    fst (validate_config_with port sample_process)
    = fst (validate_config_with port
             (Process
                (fun p =>
                   if String.eqb p "/mnt/models/rec.onnx" then Some 13
                   else if String.eqb p "/mnt/assets/fonts/simfang.ttf"
                        then Some 20
                   else if String.eqb p "/mnt/README.md" then Some 2
                   else None)
                "/mnt")).
Proof.
  apply (check_required_files_reads_four_paths sample_process).
  repeat (apply Forall_cons; split;
          [split; intros [x Hx]; cbn in Hx;
           first [discriminate Hx | cbn; eauto] |]).
  apply Forall_nil_2.
Defined.

(** ** The self-check *)

Lemma for_each_print {A : Type} (f : A -> string) (xs : list A)
    (c : console) :
  for_each xs (fun x => print (f x)) c
    = (Return tt, Console (proc c) (printed c ++ (f <$> xs))).
Proof.
  revert c. induction xs as [|x xs IH]; intros c.
  - cbn. rewrite app_nil_r. by destruct c.
  - cbn [for_each]. unfold mbind at 1, Io_bind at 1. unfold print at 1.
    rewrite IH. cbn [proc printed fmap list_fmap].
    by rewrite <- app_assoc.
Qed.

Lemma self_check_with_run (json_dumps : pyval -> string) (port : Z)
    (c : console) (errors : list string) :
  validate_config_with port (proc c) = (Return errors, proc c) ->
  self_check_with json_dumps port c =
    (Return tt,
     Console (proc c)
       (printed c ++
        match errors with
        | [] => ["✅ 配置验证通过"; newline +:+ "📋 配置信息:";
                 json_dumps (config_info_for port)]
        | _ :: _ =>
            "❌ 配置验证失败:" :: ((fun error => "  - " +:+ error) <$> errors)
        end)).
Proof.
  intros Hrun.
  unfold self_check_with, mbind at 1, Io_bind at 1, run_py.
  rewrite Hrun. destruct errors as [|e errors].
  - destruct c as [w out]. unfold mbind at 1 2 3, Io_bind, print, in_module.
    rewrite get_config_info_with_port_run. cbn [fst proc printed].
    by rewrite <- !app_assoc.
  - unfold mbind, Io_bind. unfold print at 1.
    rewrite for_each_print. cbn [proc printed].
    by rewrite <- app_assoc.
Qed.


(** X14. For the module as it is, with port 8080, and on a standard output
    that accepts the text, the self-check prints the success line, the
    heading and the dump of the loaded module's snapshot when the four
    required files exist, and otherwise the failure heading and exactly one
    error line, which lists the missing files; a port line never appears. *)
Theorem self_check_shipped (json_dumps : pyval -> string) (c : console) :
  let all_exist :=
    Forall (fun p =>
              stat_errno (proc c) (os_path.join (cwd (proc c)) [p]) = None)
           REQUIRED_FILES in
  let missing :=
    filter (fun p =>
              is_Some (stat_errno (proc c) (os_path.join (cwd (proc c)) [p])))
           REQUIRED_FILES in
  (all_exist ->
   self_check json_dumps c =
     (Return tt,
      Console (proc c)
        (printed c ++ ["✅ 配置验证通过"; newline +:+ "📋 配置信息:";
                       json_dumps (config_info_for SERVER_PORT)]))) /\
  (~ all_exist ->
   self_check json_dumps c =
     (Return tt,
      Console (proc c)
        (printed c ++ ["❌ 配置验证失败:";
                       "  - 缺少必需文件: " +:+ String.concat ", " missing]))).
Proof.
  intros all_exist missing. unfold self_check.
  pose proof (validate_config_with_run SERVER_PORT (proc c)) as Hrun.
  change ((1024 <=? SERVER_PORT) && (SERVER_PORT <=? 65535)) with true in Hrun.
  cbv iota in Hrun. cbn [app] in Hrun.
  fold (missing_under (stat_errno (proc c)) (cwd (proc c))) in missing.
  split; intros Hex.
  - apply missing_under_nil in Hex. rewrite Hex in Hrun.
    by rewrite (self_check_with_run _ _ _ _ Hrun).
  - destruct (missing_under (stat_errno (proc c)) (cwd (proc c)))
      as [|p ps] eqn:Hmiss.
    + exfalso. by apply Hex, missing_under_nil.
    + by rewrite (self_check_with_run _ _ _ _ Hrun).
Qed.

Lemma self_check_shipped_witness :
  self_check (fun _ => "{}") (Console sample_process ["starting"]) =
    (Return tt,
     Console sample_process
       ["starting"; "❌ 配置验证失败:";
        "  - 缺少必需文件: models/rec.onnx, assets/fonts/simfang.ttf"]).
Proof.
  refine (proj2 (self_check_shipped (fun _ => "{}")
                   (Console sample_process ["starting"])) _).
  intros H. apply Forall_cons_1 in H as [_ H].
  apply Forall_cons_1 in H as [H _]. discriminate H.
Defined.
